(** * PesoPilot: budget accounting, spending series, premium review workflow
      and fallback insights, embedded from the TypeScript sources.

    Conventions of the embedding.
    - A JavaScript [number] holding money is an exact rational ([Q]); the
      rounding of IEEE doubles is not modelled.
    - A JavaScript [Date] is its time value: milliseconds since the epoch, in
      [Z].  The calendar functions are those of ECMAScript (Day, DayFromYear,
      YearFromTime, MonthFromTime, DateFromTime, WeekDay, MakeDay, MakeDate).
      The server's zone is a constant offset [LocalTZA]; daylight saving
      changes and the +-8.64e15 range limit of time values are not modelled.
    - A calendar date as Postgres stores it in a DATE column and as
      [toISOString().split("T")[0]] prints it is represented by its day
      number (days since 1970-01-01).
    - The Supabase client is a state monad over the tables of
      [supabase/schema.sql]; every query runs under the row level security
      policies of that file, evaluated for the session's identity. *)

From Stdlib Require Import ZArith QArith Qminmax Qround Lia Lqa Ascii.
From stdpp Require Import base option list gmap strings pretty.

Local Open Scope Z_scope.

(* ===================================================================== *)
(** ** ECMAScript dates *)
(* ===================================================================== *)

Module JSDate.

Definition msPerDay : Z := 86400000.

Definition Day (t : Z) : Z := t / msPerDay.
Definition TimeWithinDay (t : Z) : Z := t mod msPerDay.

Definition DaysInYear (y : Z) : Z :=
  if negb (y mod 4 =? 0) then 365
  else if negb (y mod 100 =? 0) then 366
  else if negb (y mod 400 =? 0) then 365
  else 366.

Definition DayFromYear (y : Z) : Z :=
  365 * (y - 1970) + (y - 1969) / 4 - (y - 1901) / 100 + (y - 1601) / 400.

Definition TimeFromYear (y : Z) : Z := msPerDay * DayFromYear y.

(** The largest [y] with [DayFromYear y <= d]: an estimate from the mean
    length of a Gregorian year, corrected by at most one. *)
Definition YearFromDay (d : Z) : Z :=
  let y := 1970 + (400 * d) / 146097 in
  if DayFromYear (y + 1) <=? d then y + 1
  else if d <? DayFromYear y then y - 1
  else y.

Definition YearFromTime (t : Z) : Z := YearFromDay (Day t).

Definition leapDays (y : Z) : Z := if DaysInYear y =? 366 then 1 else 0.
Definition InLeapYear (t : Z) : Z := leapDays (YearFromTime t).

Definition DayWithinYear (t : Z) : Z := Day t - DayFromYear (YearFromTime t).

Definition MonthFromTime (t : Z) : Z :=
  let d := DayWithinYear t in
  let l := InLeapYear t in
  if d <? 31 then 0
  else if d <? 59 + l then 1
  else if d <? 90 + l then 2
  else if d <? 120 + l then 3
  else if d <? 151 + l then 4
  else if d <? 181 + l then 5
  else if d <? 212 + l then 6
  else if d <? 243 + l then 7
  else if d <? 273 + l then 8
  else if d <? 304 + l then 9
  else if d <? 334 + l then 10
  else 11.

(** Day within the year on which month [mn] (0 = January) starts. *)
Definition monthStart (mn l : Z) : Z :=
  match mn with
  | 0 => 0
  | 1 => 31
  | 2 => 59 + l
  | 3 => 90 + l
  | 4 => 120 + l
  | 5 => 151 + l
  | 6 => 181 + l
  | 7 => 212 + l
  | 8 => 243 + l
  | 9 => 273 + l
  | 10 => 304 + l
  | _ => 334 + l
  end.

Definition DaysInMonth (y mn : Z) : Z :=
  match mn with
  | 1 => 28 + leapDays y
  | 3 | 5 | 8 | 10 => 30
  | _ => 31
  end.

Definition DateFromTime (t : Z) : Z :=
  DayWithinYear t - monthStart (MonthFromTime t) (InLeapYear t) + 1.

Definition WeekDay (t : Z) : Z := (Day t + 4) mod 7.

Definition MakeTime (h m s ms : Z) : Z :=
  h * 3600000 + m * 60000 + s * 1000 + ms.

Definition MakeDay (year month date : Z) : Z :=
  let ym := year + month / 12 in
  let mn := month mod 12 in
  DayFromYear ym + monthStart mn (leapDays ym) + date - 1.

Definition MakeDate (day time : Z) : Z := day * msPerDay + time.

(** A [Date] object is its time value. *)
Definition Date := Z.

Section Zone.
(** Offset of the server's local time from UTC, in milliseconds. *)
Variable LocalTZA : Z.

Definition LocalTime (t : Z) : Z := t + LocalTZA.
Definition UTC (t : Z) : Z := t - LocalTZA.

Definition getFullYear (d : Date) : Z := YearFromTime (LocalTime d).
Definition getMonth (d : Date) : Z := MonthFromTime (LocalTime d).
Definition getDate (d : Date) : Z := DateFromTime (LocalTime d).
Definition getDay (d : Date) : Z := WeekDay (LocalTime d).

(** [d.setDate(dt)] *)
Definition setDate (d : Date) (dt : Z) : Date :=
  let t := LocalTime d in
  UTC (MakeDate (MakeDay (YearFromTime t) (MonthFromTime t) dt)
                (TimeWithinDay t)).

(** [d.setHours(h, m, s, ms)] *)
Definition setHours (d : Date) (h m s ms : Z) : Date :=
  let t := LocalTime d in
  UTC (MakeDate (Day t) (MakeTime h m s ms)).

(** [new Date(year, month, date)]; years 0..99 mean 1900..1999. *)
Definition newDate (year month date : Z) : Date :=
  let yr := if (0 <=? year) && (year <=? 99) then 1900 + year else year in
  UTC (MakeDate (MakeDay yr month date) (MakeTime 0 0 0 0)).
End Zone.

(** [d.toISOString().split("T")[0]]: the UTC calendar date of [d]. *)
Definition toISODate (d : Date) : Z := Day d.

(** [new Date("YYYY-MM-DD")]: a date-only string is midnight UTC. *)
Definition parseISODate (day : Z) : Date := MakeDate day 0.

(** The fields printed by [toISODate], for reading examples. *)
Definition civil (day : Z) : Z * Z * Z :=
  let t := MakeDate day 0 in
  (YearFromTime t, MonthFromTime t + 1, DateFromTime t).

End JSDate.

(* ===================================================================== *)
(** ** Data model ([premium.ts], [budget.ts], [supabase/schema.sql]) *)
(* ===================================================================== *)

Definition uuid := string.

Inductive PremiumType := free | lifetime.
Inductive RequestStatus := pending | approved | rejected.
Inductive BudgetPeriod := weekly | monthly.

#[export] Instance PremiumType_eq_dec : EqDecision PremiumType.
Proof. solve_decision. Defined.
#[export] Instance RequestStatus_eq_dec : EqDecision RequestStatus.
Proof. solve_decision. Defined.
#[export] Instance BudgetPeriod_eq_dec : EqDecision BudgetPeriod.
Proof. solve_decision. Defined.

(** [interface PremiumProfile], table [profiles]. *)
Record PremiumProfile := mkProfile {
  profile_id : uuid;
  full_name : option string;
  is_premium : bool;
  premium_type : PremiumType;
  premium_since : option Z;
  profile_created_at : Z
}.

(** [interface PremiumRequest], table [premium_requests]. *)
Record PremiumRequest := mkRequest {
  request_id : uuid;
  request_user_id : uuid;
  status : RequestStatus;
  payment_proof_url : string;
  amount_paid : Q;
  request_created_at : Z;
  reviewed_at : option Z;
  reviewed_by : option uuid
}.

(** [interface Budget], table [budgets]. *)
Record Budget := mkBudget {
  budget_id : uuid;
  budget_user_id : uuid;
  budget_amount : Q;
  period : BudgetPeriod;
  budget_created_at : Z
}.

(** [interface Expense], table [expenses]; [expense_date] is a DATE. *)
Record Expense := mkExpense {
  expense_id : uuid;
  expense_user_id : uuid;
  expense_amount : Q;
  category : string;
  description : string;
  expense_date : Z;
  expense_created_at : Z
}.

Record Db := mkDb {
  profiles : list PremiumProfile;
  budgets : list Budget;
  expenses : list Expense;
  premium_requests : list PremiumRequest
}.

(** An uploaded artifact. *)
Record File := mkFile { file_name : string; file_content : string }.

(** The [FormData] of a submission.  [formData.get(k) as File] casts every
    entry to a file, so only file entries are represented. *)
Definition FormData := list (string * File).

Fixpoint FormData_get (formData : FormData) (key : string) : option File :=
  match formData with
  | [] => None
  | (k, v) :: rest => if String.eqb k key then Some v else FormData_get rest key
  end.

(* ===================================================================== *)
(** ** The store and its client *)
(* ===================================================================== *)

(** What the outside decides: the server's zone, which calls to the store
    or to the storage service report an error, what the clock reads and
    which identifiers [gen_random_uuid()] draws, each indexed by the number
    of interactions made so far. *)
Record Env := mkEnv {
  LocalTZA : Z;
  fault_at : nat -> bool;
  clock_at : nat -> Z;
  uuid_at : nat -> uuid
}.

Record World := mkWorld {
  db : Db;
  payments : list (string * File);   (* storage bucket "payments" *)
  session : option uuid;             (* identity behind the request cookies *)
  step : nat                         (* interactions made so far *)
}.

Definition M (A : Type) : Type := Env -> World -> A * World.

Definition ret {A} (a : A) : M A := fun _ w => (a, w).

Definition bind {A B} (c : M A) (k : A -> M B) : M B :=
  fun e w => let (a, w') := c e w in k a e w'.

Declare Scope action_scope.
Delimit Scope action_scope with action.
Notation "x <- c ;; k" := (bind c (fun x => k))
  (at level 100, c at next level, right associativity) : action_scope.
Local Open Scope action_scope.

Definition tick (w : World) : World :=
  mkWorld (db w) (payments w) (session w) (S (step w)).

Definition with_db (d : Db) (w : World) : World :=
  mkWorld d (payments w) (session w) (step w).

Definition with_payments (p : list (string * File)) (w : World) : World :=
  mkWorld (db w) p (session w) (step w).

(** [supabase.auth.getUser()]: the session's identity, [None] when there is
    none or it cannot be verified. *)
Definition getUser : M (option uuid) := fun _ w => (session w, w).

(** [new Date()] and [Date.now()]: one reading of the clock. *)
Definition Date_now : M Z := fun e w => (clock_at e (step w), tick w).

(** [{ data, error }] *)
Record Response (A : Type) := mkResponse {
  data : option A;
  error : option string
}.
Arguments mkResponse {A} _ _.
Arguments data {A} _.
Arguments error {A} _.

Definition ok {A} (a : A) : Response A := mkResponse (Some a) None.
Definition failed {A} (msg : string) : Response A := mkResponse None (Some msg).

Definition is_uid (w : World) (u : uuid) : bool :=
  bool_decide (session w = Some u).

(** [EXISTS (SELECT 1 FROM profiles WHERE id = auth.uid() AND is_premium = TRUE)] *)
Definition caller_is_premium (w : World) : bool :=
  existsb (fun p => is_uid w (profile_id p) && is_premium p) (profiles (db w)).

(** A table with its primary key and its row level security policies. *)
Record Table (Row : Type) := mkTable {
  rows : Db -> list Row;
  with_rows : list Row -> Db -> Db;
  pkey : Row -> uuid;
  select_using : World -> Row -> bool;
  insert_check : World -> Row -> bool;
  update_using : World -> Row -> bool
}.
Arguments mkTable {Row} _ _ _ _ _ _.
Arguments rows {Row} _ _.
Arguments with_rows {Row} _ _ _.
Arguments pkey {Row} _ _.
Arguments select_using {Row} _ _ _.
Arguments insert_check {Row} _ _ _.
Arguments update_using {Row} _ _ _.

(** "Users can view/insert/update own profile" *)
Definition profiles_table : Table PremiumProfile :=
  mkTable profiles
    (fun l d => mkDb l (budgets d) (expenses d) (premium_requests d))
    profile_id
    (fun w p => is_uid w (profile_id p))
    (fun w p => is_uid w (profile_id p))
    (fun w p => is_uid w (profile_id p)).

(** "Users can view/insert/update own budgets" *)
Definition budgets_table : Table Budget :=
  mkTable budgets
    (fun l d => mkDb (profiles d) l (expenses d) (premium_requests d))
    budget_id
    (fun w b => is_uid w (budget_user_id b))
    (fun w b => is_uid w (budget_user_id b))
    (fun w b => is_uid w (budget_user_id b)).

(** "Users can view/insert/update own expenses" *)
Definition expenses_table : Table Expense :=
  mkTable expenses
    (fun l d => mkDb (profiles d) (budgets d) l (premium_requests d))
    expense_id
    (fun w x => is_uid w (expense_user_id x))
    (fun w x => is_uid w (expense_user_id x))
    (fun w x => is_uid w (expense_user_id x)).

(** "Users can view own premium requests", "Admins can view all premium
    requests" (permissive policies are or-ed), "Users can insert own premium
    requests", "Admins can update premium requests". *)
Definition premium_requests_table : Table PremiumRequest :=
  mkTable premium_requests
    (fun l d => mkDb (profiles d) (budgets d) (expenses d) l)
    request_id
    (fun w r => is_uid w (request_user_id r) || caller_is_premium w)
    (fun w r => is_uid w (request_user_id r))
    (fun w r => caller_is_premium w).

(** Modelled from the spec: [createClient] of [utils/supabase/server], which
    is not among the sources.  "The store's row-level policies are the sole
    enforcement mechanism": the client queries as the session's identity, so
    a SELECT returns the rows its policy admits, an UPDATE changes the rows
    that both the SELECT and the UPDATE policy admit and silently skips the
    others, and an INSERT of a row its policy refuses is an error.  (The
    implicit WITH CHECK of an UPDATE repeats USING on the new row; no update
    below changes a column that the policy of its table reads.) *)
Definition db_select {Row} (T : Table Row) (cond : Row -> bool)
  : M (Response (list Row)) :=
  fun e w =>
    if fault_at e (step w) then (failed "store error", tick w)
    else (ok (List.filter (fun r => select_using T w r && cond r) (rows T (db w))),
          tick w).

(** [.single()]: exactly one row, otherwise an error and no data. *)
Definition single {Row} (r : Response (list Row)) : Response Row :=
  match data r with
  | Some [x] => ok x
  | Some _ => failed "PGRST116"
  | None => mkResponse None (error r)
  end.

Definition db_update {Row} (T : Table Row) (f : Row -> Row) (cond : Row -> bool)
  : M (Response unit) :=
  fun e w =>
    if fault_at e (step w) then (failed "store error", tick w)
    else
      let touch r :=
        if select_using T w r && update_using T w r && cond r then f r else r in
      (ok tt, tick (with_db (with_rows T (map touch (rows T (db w))) (db w)) w)).

(** The row is completed with the column defaults [gen_random_uuid()] and
    [NOW()]. *)
Definition db_insert {Row} (T : Table Row) (mk : uuid -> Z -> Row)
  : M (Response unit) :=
  fun e w =>
    let r := mk (uuid_at e (step w)) (clock_at e (step w)) in
    if fault_at e (step w) then (failed "store error", tick w)
    else if negb (insert_check T w r) then
      (failed "new row violates row-level security policy", tick w)
    else if existsb (fun r' => String.eqb (pkey T r') (pkey T r)) (rows T (db w)) then
      (failed "duplicate key value violates unique constraint", tick w)
    else (ok tt, tick (with_db (with_rows T (rows T (db w) ++ [r]) (db w)) w)).

(** [supabase.storage.from("payments").upload(path, file)] *)
Definition storage_upload (path : string) (file : File) : M (Response unit) :=
  fun e w =>
    if fault_at e (step w) then (failed "upload error", tick w)
    else (ok tt, tick (with_payments (payments w ++ [(path, file)]) w)).

(** [getPublicUrl(path)], without the project's origin. *)
Definition getPublicUrl (path : string) : string :=
  "/storage/v1/object/public/payments/" +:+ path.

(* ===================================================================== *)
(** ** Premium workflow ([src/app/api/premium.ts]) *)
(* ===================================================================== *)

(** [{ error: string } | { success: true }] *)
Inductive ActionResult :=
| action_error (message : string)
| action_success.

(** [s.split(sep)] for a one-character separator. *)
Fixpoint String_split (sep : Ascii.ascii) (s : string) : list string :=
  match s with
  | EmptyString => [EmptyString]
  | String c s' =>
      let parts := String_split sep s' in
      if Ascii.eqb c sep then EmptyString :: parts
      else match parts with
           | p :: ps => String c p :: ps
           | [] => [String c EmptyString]
           end
  end.

(** [parts.pop()] of a non-empty array. *)
Definition Array_pop (parts : list string) : string := List.last parts EmptyString.

Definition has_error {A} (r : Response A) : bool :=
  match error r with Some _ => true | None => false end.

Definition submitPremiumRequest (formData : FormData) : M ActionResult :=
  user <- getUser ;;
  match user with
  | None => ret (action_error "Not authenticated")
  | Some user_id =>
    match FormData_get formData "payment_proof" with
    | None => ret (action_error "Payment proof is required")
    | Some paymentProof =>
      let fileExt := Array_pop (String_split "."%char (file_name paymentProof)) in
      now <- Date_now ;;
      let fileName :=
        "payment_proofs/" +:+ user_id +:+ "/" +:+ pretty now +:+ "." +:+ fileExt in
      uploaded <- storage_upload fileName paymentProof ;;
      if has_error uploaded then ret (action_error "Failed to upload payment proof")
      else
        let publicUrl := getPublicUrl fileName in
        requested <- db_insert premium_requests_table
          (fun id created_at =>
             mkRequest id user_id pending publicUrl 199%Q created_at None None) ;;
        if has_error requested then
          ret (action_error "Failed to submit premium request")
        else ret action_success
    end
  end.

Definition approvePremiumRequest (requestId : uuid) : M ActionResult :=
  user <- getUser ;;
  match user with
  | None => ret (action_error "Not authenticated")
  | Some user_id =>
    found <- db_select premium_requests_table
               (fun r => String.eqb (request_id r) requestId) ;;
    match data (single found) with
    | None => ret (action_error "Request not found")
    | Some request =>
      reviewed <- Date_now ;;
      updated <- db_update premium_requests_table
        (fun r => mkRequest (request_id r) (request_user_id r) approved
                    (payment_proof_url r) (amount_paid r) (request_created_at r)
                    (Some reviewed) (Some user_id))
        (fun r => String.eqb (request_id r) requestId) ;;
      if has_error updated then ret (action_error "Failed to approve request")
      else
        since <- Date_now ;;
        upgraded <- db_update profiles_table
          (fun p => mkProfile (profile_id p) (full_name p) true lifetime
                      (Some since) (profile_created_at p))
          (fun p => String.eqb (profile_id p) (request_user_id request)) ;;
        if has_error upgraded then ret (action_error "Failed to upgrade user")
        else ret action_success
    end
  end.

Definition rejectPremiumRequest (requestId : uuid) : M ActionResult :=
  user <- getUser ;;
  match user with
  | None => ret (action_error "Not authenticated")
  | Some user_id =>
    reviewed <- Date_now ;;
    updated <- db_update premium_requests_table
      (fun r => mkRequest (request_id r) (request_user_id r) rejected
                  (payment_proof_url r) (amount_paid r) (request_created_at r)
                  (Some reviewed) (Some user_id))
      (fun r => String.eqb (request_id r) requestId) ;;
    if has_error updated then ret (action_error "Failed to reject request")
    else ret action_success
  end.

(* ===================================================================== *)
(** ** Budget accounting ([src/app/api/budget.ts]) *)
(* ===================================================================== *)

Import JSDate.

(** The zone the server process runs in. *)
Definition zone : M Z := fun e w => (LocalTZA e, w).

(** [xs.sort(compare)]: JavaScript's sort is stable; [compare a b > 0] puts
    [a] after [b].  Also used for the ORDER BY of a query. *)
Fixpoint Array_sort_insert {A} (compare : A -> A -> Q) (x : A) (sorted : list A)
  : list A :=
  match sorted with
  | [] => [x]
  | y :: rest =>
      if Qle_bool (compare x y) 0 then x :: sorted
      else y :: Array_sort_insert compare x rest
  end.

Definition Array_sort {A} (compare : A -> A -> Q) (xs : list A) : list A :=
  fold_right (Array_sort_insert compare) [] xs.

Definition by_date_ascending (a b : Expense) : Q :=
  inject_Z (expense_date a - expense_date b).
Definition by_date_descending (a b : Expense) : Q :=
  inject_Z (expense_date b - expense_date a).

(** [data] of a query with [.order(...)], the rows in the requested order. *)
Definition ordered {Row} (compare : Row -> Row -> Q) (r : Response (list Row))
  : Response (list Row) :=
  mkResponse (Array_sort compare <$> data r) (error r).

(** [x > y] on numbers. *)
Definition Number_gt (x y : Q) : bool := negb (Qle_bool x y).

(** [x || 0] for a number that may be missing. *)
Definition or_zero (x : option Q) : Q :=
  match x with
  | Some q => if Qeq_bool q 0 then 0%Q else q
  | None => 0%Q
  end.

Record BudgetSummary := mkSummary {
  budget : option Budget;
  totalSpent : Q;
  remaining : Q;
  percentageUsed : Q;
  summary_expenses : list Expense
}.

(** Lines 434-449 of [getBudgetSummary]: the period as [startDate, endDate]. *)
Definition periodRange (tza : Z) (budget : option Budget) (now : Date)
  : Date * Date :=
  if bool_decide (period <$> budget = Some weekly) then
    let startDate := now in
    let startDate := setDate tza startDate (getDate tza now - getDay tza now) in
    let startDate := setHours tza startDate 0 0 0 0 in
    let endDate := startDate in
    let endDate := setDate tza endDate (getDate tza startDate + 6) in
    (startDate, endDate)
  else
    (newDate tza (getFullYear tza now) (getMonth tza now) 1,
     newDate tza (getFullYear tza now) (getMonth tza now + 1) 0).

Definition sum_amounts (expensesList : list Expense) : Q :=
  fold_left (fun sum exp => (sum + expense_amount exp)%Q) expensesList 0%Q.

Definition getBudgetSummary : M BudgetSummary :=
  user <- getUser ;;
  match user with
  | None => ret (mkSummary None 0 0 0 [])
  | Some user_id =>
    found <- db_select budgets_table
               (fun b => String.eqb (budget_user_id b) user_id) ;;
    let budget := data (single found) in
    now <- Date_now ;;
    tza <- zone ;;
    let '(startDate, endDate) := periodRange tza budget now in
    listed <- db_select expenses_table
                (fun x => String.eqb (expense_user_id x) user_id
                          && (toISODate startDate <=? expense_date x)
                          && (expense_date x <=? toISODate endDate)) ;;
    let expensesList := default [] (data (ordered by_date_descending listed)) in
    let totalSpent := sum_amounts expensesList in
    let budgetAmount :=
      match budget with Some b => budget_amount b | None => 0%Q end in
    let remaining := Qmax 0 (budgetAmount - totalSpent) in
    let percentageUsed :=
      if Number_gt budgetAmount 0 then (totalSpent / budgetAmount * 100)%Q
      else 0%Q in
    ret (mkSummary budget totalSpent remaining (Qmin percentageUsed 100)
           expensesList)
  end.

Definition getExpenses (startDate endDate : option Z) : M (list Expense) :=
  user <- getUser ;;
  match user with
  | None => ret []
  | Some user_id =>
    listed <- db_select expenses_table
                (fun x => String.eqb (expense_user_id x) user_id
                          && match startDate with
                             | Some s => s <=? expense_date x
                             | None => true
                             end
                          && match endDate with
                             | Some t => expense_date x <=? t
                             | None => true
                             end) ;;
    if has_error listed then ret []
    else ret (default [] (data (ordered by_date_descending listed)))
  end.

(** [interface SpendingData] *)
Record SpendingData := mkSpending { date : Z; amount : Q }.

(** [dailyTotals[date] = (dailyTotals[date] || 0) + Number(expense.amount)] *)
Definition add_daily (dailyTotals : gmap Z Q) (expense : Expense) : gmap Z Q :=
  <[expense_date expense :=
      (or_zero (dailyTotals !! expense_date expense) + expense_amount expense)%Q]>
    dailyTotals.

(** The [while (currentDate <= endDate)] loop; [fuel] bounds the number of
    iterations. *)
Fixpoint fill_days (fuel : nat) (tza : Z) (dailyTotals : gmap Z Q)
    (currentDate endDate : Date) (result : list SpendingData)
  : list SpendingData :=
  match fuel with
  | O => result
  | S fuel' =>
      if currentDate <=? endDate then
        let dateStr := toISODate currentDate in
        let result :=
          result ++ [mkSpending dateStr (or_zero (dailyTotals !! dateStr))] in
        fill_days fuel' tza dailyTotals
          (setDate tza currentDate (getDate tza currentDate + 1)) endDate result
      else result
  end.

(** Iterations after which the loop has certainly left: each one moves
    [currentDate] a day forward. *)
Definition fill_bound (startDate endDate : Date) : nat :=
  Z.to_nat ((endDate - startDate) / msPerDay + 1).

Definition getSpendingOverTime (days : Z) : M (list SpendingData) :=
  user <- getUser ;;
  match user with
  | None => ret []
  | Some user_id =>
    endDate <- Date_now ;;
    startDate <- Date_now ;;
    tza <- zone ;;
    let startDate := setDate tza startDate (getDate tza endDate - days) in
    listed <- db_select expenses_table
                (fun x => String.eqb (expense_user_id x) user_id
                          && (toISODate startDate <=? expense_date x)
                          && (expense_date x <=? toISODate endDate)) ;;
    if has_error listed then ret []
    else
      let rows := default [] (data (ordered by_date_ascending listed)) in
      let dailyTotals := fold_left add_daily rows ∅ in
      let currentDate := startDate in
      ret (fill_days (fill_bound startDate endDate) tza dailyTotals
             currentDate endDate [])
  end.

(* ===================================================================== *)
(** ** Financial snapshot ([src/components/premium/AIInsights.tsx]) *)
(* ===================================================================== *)

Inductive RiskLevel := low | moderate | high.

#[export] Instance RiskLevel_eq_dec : EqDecision RiskLevel.
Proof. solve_decision. Defined.

(** [interface FinancialData] *)
Record FinancialData := mkFinancialData {
  data_budget : Q;
  total_spent : Q;
  percent_used : Q;
  daily_average : Q;
  projected_days_remaining : Q;
  top_category : string;
  risk_level : RiskLevel
}.

Definition Math_floor (x : Q) : Q := inject_Z (Qfloor x).
Definition Math_round (x : Q) : Q := inject_Z (Qfloor (x + (1 # 2))).

(** [categoryTotals[c] = (categoryTotals[c] || 0) + amount]: the properties
    of the object, in the order in which they were created. *)
Fixpoint add_category (categoryTotals : list (string * Q)) (c : string) (a : Q)
  : list (string * Q) :=
  match categoryTotals with
  | [] => [(c, (0 + a)%Q)]
  | (k, v) :: rest =>
      if String.eqb k c
      then (k, ((if Qeq_bool v 0 then 0 else v) + a)%Q) :: rest
      else (k, v) :: add_category rest c a
  end.

(** The value of a decimal digit. *)
Definition digit_value (c : ascii) : option N :=
  let n := N_of_ascii c in
  if ((48 <=? n) && (n <=? 57))%N then Some (n - 48)%N else None.

Fixpoint numeral_value (s : string) (acc : N) : option N :=
  match s with
  | EmptyString => Some acc
  | String c rest =>
      match digit_value c with
      | Some d => numeral_value rest (acc * 10 + d)%N
      | None => None
      end
  end.

(** Whether a property key is an array index: a decimal numeral without a
    leading zero and below 2^32 - 1. *)
Definition array_index (key : string) : option N :=
  match key with
  | EmptyString => None
  | String c rest =>
      if Ascii.eqb c "0" && negb (String.eqb rest EmptyString) then None
      else
        match numeral_value key 0 with
        | Some n => if (n <? 2 ^ 32 - 1)%N then Some n else None
        | None => None
        end
  end.

(** [Object.entries(obj)]: the array-index keys first, in ascending numeric
    order, then the other keys in the order of their creation. *)
Definition Object_entries {V} (properties : list (string * V))
  : list (string * V) :=
  let index_of (entry : string * V) : Z :=
    Z.of_N (default 0%N (array_index (fst entry))) in
  Array_sort (fun a b => inject_Z (index_of a - index_of b))
    (List.filter (fun entry => bool_decide (is_Some (array_index (fst entry))))
       properties)
  ++ List.filter (fun entry => negb (bool_decide (is_Some (array_index (fst entry)))))
       properties.

(** [calculateFinancialData]; [clientTZA] is the zone of the browser the
    component runs in. *)
Definition calculateFinancialData (clientTZA : Z) : M (option FinancialData) :=
  summary <- getBudgetSummary ;;
  expenses <- getExpenses None None ;;
  let totalSpent := or_zero (Some (totalSpent summary)) in
  let budget := or_zero (budget_amount <$> budget summary) in
  let percentUsed :=
    if Number_gt budget 0 then Math_round (totalSpent / budget * 100)
    else 0%Q in
  thirtyDaysAgo <- Date_now ;;
  let thirtyDaysAgo :=
    setDate clientTZA thirtyDaysAgo (getDate clientTZA thirtyDaysAgo - 30) in
  let recentExpenses :=
    List.filter (fun e => thirtyDaysAgo <=? parseISODate (expense_date e))
      expenses in
  let dailyAverage :=
    if (0 <? length recentExpenses)%nat
    then Math_round (sum_amounts recentExpenses / 30)
    else 0%Q in
  let projectedDays :=
    if Number_gt dailyAverage 0 && Number_gt budget totalSpent
    then Math_floor ((budget - totalSpent) / dailyAverage)
    else 0%Q in
  let categoryTotals :=
    fold_left (fun totals e => add_category totals (category e) (expense_amount e))
      expenses [] in
  let topCategory :=
    match Array_sort (fun a b => (snd b - snd a)%Q)
            (Object_entries categoryTotals) with
    | (c, _) :: _ => if String.eqb c "" then "None" else c
    | [] => "None"
    end in
  let riskLevel :=
    if Number_gt percentUsed 75 then high
    else if Qle_bool 40 percentUsed then moderate
    else low in
  ret (Some (mkFinancialData budget totalSpent percentUsed dailyAverage
               projectedDays topCategory riskLevel)).

(* ===================================================================== *)
(** ** Insight generation (the [ai-insights] route) *)
(* ===================================================================== *)

(** The snapshot as the route receives it in the request body. *)
Record InsightData := mkInsightData {
  json_budget : Q;
  json_total_spent : Q;
  json_percent_used : Q;
  json_daily_average : Q;
  json_projected_days_remaining : Q;
  json_top_category : string;
  json_risk_level : string
}.

Definition RiskLevel_name (r : RiskLevel) : string :=
  match r with low => "low" | moderate => "moderate" | high => "high" end.

(** [JSON.stringify({ financialData })] read back by [request.json()]. *)
Definition to_body (d : FinancialData) : InsightData :=
  mkInsightData (data_budget d) (total_spent d) (percent_used d)
    (daily_average d) (projected_days_remaining d) (top_category d)
    (RiskLevel_name (risk_level d)).

Record Insight := mkInsight {
  icon : string;
  title : string;
  insight_description : string;
  type : string
}.

Section Insights.
(** How a template literal prints a number. *)
Variable Number_toString : Q -> string.

Definition generateFallbackInsights (data : InsightData) : list Insight :=
  let insights := [] in
  let insights :=
    if String.eqb (json_risk_level data) "high" then
      insights ++ [mkInsight "alert" "Budget Critical"
        ("You've used " +:+ Number_toString (json_percent_used data)
           +:+ "% of your budget. Cut non-essential spending immediately.")
        "alert"]
    else if String.eqb (json_risk_level data) "moderate" then
      insights ++ [mkInsight "warning" "Budget Warning"
        ("You're at " +:+ Number_toString (json_percent_used data)
           +:+ "% budget usage. Slow down spending to stay on track.")
        "warning"]
    else
      insights ++ [mkInsight "check" "Budget Healthy"
        ("Great job! Only " +:+ Number_toString (json_percent_used data)
           +:+ "% used. You're well within your budget.")
        "success"] in
  let insights :=
    insights ++ [mkInsight "trend" "Daily Spending"
      ("Your daily average is ₱" +:+ Number_toString (json_daily_average data)
         +:+ ". At this rate, budget runs out in "
         +:+ Number_toString (json_projected_days_remaining data) +:+ " days.")
      (if Number_gt 7 (json_projected_days_remaining data)
       then "warning" else "tip")] in
  let insights :=
    insights ++ [mkInsight "lightbulb" "Top Category Focus"
      (json_top_category data
         +:+ " is your biggest expense. Review these transactions for savings opportunities.")
      "tip"] in
  let insights :=
    insights ++ [mkInsight "trend" "Savings Potential"
      (if Number_gt 50 (json_percent_used data)
       then "You're on track to save ₱"
              +:+ Number_toString (json_budget data - json_total_spent data)
              +:+ " this period. Keep it up!"
       else "Reduce discretionary spending to avoid exceeding your ₱"
              +:+ Number_toString (json_budget data) +:+ " budget.")
      (if Number_gt 50 (json_percent_used data) then "success" else "warning")] in
  insights.

(** The generative service as the route sees it: whether a client was
    built from the API key, what a completion call does ([None]: it
    throws; [Some content]: the message content, possibly missing), and
    what extracting and parsing the content yields ([None]: it throws). *)
Record Generative := mkGenerative {
  openai : bool;
  completion : InsightData -> option (option string);
  parse_content : string -> option (list Insight)
}.

(** [NextResponse.json(...)] *)
Inductive Reply :=
| reply_error (message : string) (http_status : Z)
| reply_insights (insights : list Insight) (source : string)
    (message : option string).

Definition POST (ai : Generative) (financialData : option InsightData)
  : M Reply :=
  user <- getUser ;;
  match user with
  | None => ret (reply_error "Not authenticated" 401)
  | Some user_id =>
    found <- db_select profiles_table
               (fun p => String.eqb (profile_id p) user_id) ;;
    if negb (default false (is_premium <$> data (single found))) then
      ret (reply_error "Premium required" 403)
    else
      match financialData with
      | None => ret (reply_error "Financial data required" 400)
      | Some financialData =>
        if negb (openai ai) then
          ret (reply_insights (generateFallbackInsights financialData) "fallback"
                 (Some "AI insights temporarily using local analysis. Add OPENAI_API_KEY for advanced insights."))
        else
          match completion ai financialData with
          | Some (Some content) =>
              if String.eqb content "" then
                ret (reply_insights (generateFallbackInsights financialData)
                       "fallback"
                       (Some "Using local analysis. AI service temporarily unavailable."))
              else
                let insights :=
                  match parse_content ai content with
                  | Some parsed => parsed
                  | None => generateFallbackInsights financialData
                  end in
                ret (reply_insights insights "ai" None)
          | _ =>
              ret (reply_insights (generateFallbackInsights financialData)
                     "fallback"
                     (Some "Using local analysis. AI service temporarily unavailable."))
          end
      end
  end.
End Insights.

(* ===================================================================== *)
(** ** Vocabulary of the statements and concrete scenarios *)
(* ===================================================================== *)


(** The row an approve or reject call writes over [r]. *)
Definition review (st : RequestStatus) (reviewer : uuid) (at_ : Z)
    (r : PremiumRequest) : PremiumRequest :=
  mkRequest (request_id r) (request_user_id r) st (payment_proof_url r)
    (amount_paid r) (request_created_at r) (Some at_) (Some reviewer).

(** Number of times the body of the loop of [getSpendingOverTime] runs. *)
Definition iterations (currentDate endDate : Date) : nat :=
  if currentDate <=? endDate
  then Z.to_nat ((endDate - currentDate) / msPerDay + 1) else O.

(** The entry the loop pushes for [d]. *)
Definition day_entry (dailyTotals : gmap Z Q) (d : Date) : SpendingData :=
  mkSpending (toISODate d) (or_zero (dailyTotals !! toISODate d)).

(** A server in UTC whose store never fails and whose clock stands at
    2024-03-15T12:00:00.000Z (a Friday, day 19797) for the whole request. *)
Definition example_env : Env :=
  mkEnv 0 (fun _ => false) (fun _ => 1710504000000) (fun n => pretty n).

Definition admin_profile : PremiumProfile :=
  mkProfile "admin" None true lifetime (Some 0) 0.
Definition alice_profile : PremiumProfile :=
  mkProfile "alice" None false free None 0.

Definition alice_request (st : RequestStatus) (at_ : option Z)
    (by_ : option uuid) : PremiumRequest :=
  mkRequest "r1" "alice" st "proof.png" 199%Q 0 at_ by_.

(** Alice, not premium, is signed in; her request is pending. *)
Definition world_pending : World :=
  mkWorld
    (mkDb [admin_profile; alice_profile] [] []
       [alice_request pending None None])
    [] (Some "alice") 0.

(** The admin is signed in; Alice's request was approved earlier. *)
Definition world_reviewed : World :=
  mkWorld
    (mkDb [admin_profile; alice_profile] [] []
       [alice_request approved (Some 1700000000000) (Some "admin")])
    [] (Some "admin") 0.

(** Alice has no budget and one expense of 500 dated today. *)
Definition world_spending : World :=
  mkWorld
    (mkDb [alice_profile] []
       [mkExpense "x1" "alice" 500%Q "Food & Dining" "lunch" 19797 1710504000000]
       [])
    [] (Some "alice") 0.

(** Alice has a monthly budget of 100 and one expense today. *)
Definition world_spent (spent : Q) : World :=
  mkWorld
    (mkDb [alice_profile] [mkBudget "b1" "alice" 100%Q monthly 0]
       [mkExpense "x1" "alice" spent "Food & Dining" "lunch" 19797 1710504000000]
       [])
    [] (Some "alice") 0.

(** A server in Manila (UTC+8) at the same instant: Friday 2024-03-15,
    20:00 local time. *)
Definition manila_env : Env :=
  mkEnv 28800000 (fun _ => false) (fun _ => 1710504000000) (fun n => pretty n).

(** Alice has a weekly budget of 1000, an expense of 100 dated Saturday
    2024-03-09 (day 19791, the week before) and an expense of 7 dated
    Saturday 2024-03-16 (day 19798, the last day of this week). *)
Definition weekly_budget : Budget := mkBudget "b1" "alice" 1000%Q weekly 0.
Definition expense_last_week : Expense :=
  mkExpense "x1" "alice" 100%Q "Shopping" "shoes" 19791 1709900000000.
Definition expense_this_saturday : Expense :=
  mkExpense "x2" "alice" 7%Q "Transportation" "fare" 19798 1710500000000.
Definition world_weekly : World :=
  mkWorld
    (mkDb [alice_profile] [weekly_budget]
       [expense_last_week; expense_this_saturday] [])
    [] (Some "alice") 0.



(** A snapshot, and two generative services that are not available: no API
    key, and a client whose call throws. *)
Definition example_snapshot : InsightData :=
  mkInsightData 5000 3000 60 100 20 "Food & Dining" "moderate".
Definition show_fraction (q : Q) : string :=
  pretty (Qnum q) +:+ "/" +:+ pretty (Z.pos (Qden q)).
Definition no_api_key : Generative :=
  mkGenerative false (fun _ => None) (fun _ => None).
Definition api_down : Generative :=
  mkGenerative true (fun _ => None) (fun _ => None).

(* ===================================================================== *)
(** ** Facts about the calendar *)
(* ===================================================================== *)

Ltac zdiv := Z.div_mod_to_equations; lia.

(** Evaluate the closed quotients and remainders by 12 of a goal. *)
Ltac months :=
  repeat match goal with
         | |- context [?a mod 12] =>
             let v := eval vm_compute in (a mod 12) in change (a mod 12) with v
         | |- context [?a / 12] =>
             let v := eval vm_compute in (a / 12) in change (a / 12) with v
         end.

Ltac each_month mn :=
  let C := fresh "C" in
  assert (mn = 0 \/ mn = 1 \/ mn = 2 \/ mn = 3 \/ mn = 4 \/ mn = 5 \/ mn = 6
          \/ mn = 7 \/ mn = 8 \/ mn = 9 \/ mn = 10 \/ mn = 11) as C by lia;
  repeat destruct C as [C|C]; subst mn.

Ltac split_ltb :=
  repeat match goal with
         | |- context [if ?a <? ?b then _ else _] => destruct (Z.ltb_spec a b)
         end.

Module JSDateFacts.
Import JSDate.

Example epoch_is_a_thursday : civil 0 = (1970, 1, 1) /\ WeekDay 0 = 4.
Proof. split; reflexivity. Qed.

Example leap_day_2000 : civil (Day 951782400000) = (2000, 2, 29).
Proof. reflexivity. Qed.

Example no_leap_day_2100 : civil (Day 4107456000000 + 1) = (2100, 3, 1).
Proof. reflexivity. Qed.

Example before_the_epoch : civil (-1) = (1969, 12, 31).
Proof. reflexivity. Qed.

Lemma leapDays_range y : 0 <= leapDays y <= 1.
Proof. unfold leapDays. destruct (_ =? _); lia. Qed.

Lemma DayFromYear_succ y :
  DayFromYear (y + 1) = DayFromYear y + 365 + leapDays y.
Proof.
  unfold DayFromYear, leapDays, DaysInYear.
  destruct (Z.eqb_spec (y mod 4) 0), (Z.eqb_spec (y mod 100) 0),
    (Z.eqb_spec (y mod 400) 0); cbn; zdiv.
Qed.

Lemma DayFromYear_mono y1 y2 : y1 <= y2 -> DayFromYear y1 <= DayFromYear y2.
Proof. intros H. unfold DayFromYear. zdiv. Qed.

(** [YearFromDay] is the year ECMAScript asks for. *)
Lemma YearFromDay_spec d :
  DayFromYear (YearFromDay d) <= d < DayFromYear (YearFromDay d + 1).
Proof.
  unfold YearFromDay.
  set (y := 1970 + 400 * d / 146097).
  assert (Hy : 146097 * (y - 1970) <= 400 * d < 146097 * (y - 1970) + 146097)
    by (subst y; zdiv).
  clearbody y.
  destruct (Z.leb_spec (DayFromYear (y + 1)) d) as [H1|H1].
  - split; [lia|]. unfold DayFromYear in *. zdiv.
  - destruct (Z.ltb_spec d (DayFromYear y)) as [H2|H2]; [|lia].
    replace (y - 1 + 1) with y by lia. split; [|lia].
    unfold DayFromYear in *. zdiv.
Qed.

Lemma YearFromDay_unique y d :
  DayFromYear y <= d < DayFromYear (y + 1) -> YearFromDay d = y.
Proof.
  intros H. pose proof (YearFromDay_spec d) as S.
  destruct (Z.lt_trichotomy (YearFromDay d) y) as [L|[E|G]]; [|exact E|].
  - pose proof (DayFromYear_mono (YearFromDay d + 1) y ltac:(lia)). lia.
  - pose proof (DayFromYear_mono (y + 1) (YearFromDay d) ltac:(lia)). lia.
Qed.


Lemma MonthFromTime_range t : 0 <= MonthFromTime t <= 11.
Proof.
  unfold MonthFromTime.
  repeat match goal with
         | |- context [if ?b then _ else _] => destruct b
         end; lia.
Qed.

Lemma DaysInMonth_range y mn : 28 <= DaysInMonth y mn <= 31.
Proof.
  pose proof (leapDays_range y). unfold DaysInMonth.
  destruct mn as [|p|p]; try lia.
  do 4 (try (destruct p; try lia)).
Qed.


(** Setting the day of the month relative to the current one moves the day
    number by the same amount. *)
Lemma MakeDay_fields t k :
  MakeDay (YearFromTime t) (MonthFromTime t) (DateFromTime t + k) = Day t + k.
Proof.
  pose proof (MonthFromTime_range t) as R.
  unfold MakeDay.
  replace (MonthFromTime t / 12) with 0 by zdiv.
  replace (MonthFromTime t mod 12) with (MonthFromTime t) by zdiv.
  rewrite Z.add_0_r. unfold DateFromTime, DayWithinYear, InLeapYear. lia.
Qed.

Lemma LocalTime_UTC tza t : LocalTime tza (UTC tza t) = t.
Proof. unfold LocalTime, UTC. lia. Qed.

(** [d.setDate(d.getDate() + k)] is [k] days later, at the same time of day. *)
Lemma setDate_relative tza d k :
  setDate tza d (getDate tza d + k) = d + k * msPerDay.
Proof.
  unfold setDate, getDate, UTC, MakeDate.
  rewrite MakeDay_fields. unfold Day, TimeWithinDay, LocalTime, msPerDay. zdiv.
Qed.

(** Midnight of day [dt] of month [mn] of year [y], read back. *)
Lemma fields_of_MakeDay y mn dt :
  0 <= mn <= 11 -> 1 <= dt <= DaysInMonth y mn ->
  let t := MakeDate (MakeDay y mn dt) 0 in
  YearFromTime t = y /\ MonthFromTime t = mn /\ DateFromTime t = dt.
Proof.
  intros Hm Hd t.
  assert (HD : Day t = DayFromYear y + monthStart mn (leapDays y) + dt - 1).
  { subst t. unfold MakeDate, Day, MakeDay.
    replace (mn / 12) with 0 by zdiv.
    replace (mn mod 12) with mn by zdiv.
    rewrite !Z.add_0_r. unfold msPerDay. zdiv. }
  pose proof (leapDays_range y) as L.
  assert (HY : YearFromTime t = y).
  { unfold YearFromTime. apply YearFromDay_unique. rewrite HD, DayFromYear_succ.
    each_month mn; cbn [monthStart DaysInMonth] in *; lia. }
  assert (HM : MonthFromTime t = mn).
  { unfold MonthFromTime, DayWithinYear, InLeapYear. rewrite HY, HD.
    each_month mn; cbn [monthStart DaysInMonth] in *; split_ltb; lia. }
  split; [exact HY|]. split; [exact HM|].
  unfold DateFromTime, DayWithinYear, InLeapYear. rewrite HM, HY, HD. lia.
Qed.

(** Day 0 of the next month is the last day of this one. *)
Lemma MakeDay_last y mn :
  0 <= mn <= 11 -> MakeDay y (mn + 1) 0 = MakeDay y mn (DaysInMonth y mn).
Proof.
  intros H. unfold MakeDay.
  each_month mn; months; cbn [monthStart DaysInMonth];
    rewrite ?Z.add_0_r, ?DayFromYear_succ; lia.
Qed.

(** The date [toISOString] prints for local midnight of day [d]: [d] itself
    on a server at or west of UTC (up to a day), the day before on a server
    east of it. *)
Lemma toISODate_local_midnight tza d :
  toISODate (UTC tza (MakeDate d 0)) = d + Day (- tza).
Proof. unfold toISODate, UTC, MakeDate, Day, msPerDay. zdiv. Qed.

Example first_of_march_in_manila :
  civil (toISODate (newDate 28800000 2024 2 1)) = (2024, 2, 29).
Proof. reflexivity. Qed.

End JSDateFacts.

(* ===================================================================== *)
(** ** The accounting period *)
(* ===================================================================== *)

Import JSDateFacts.


(** The two [Date] objects of lines 434-449, read in the server's local
    time.  Weekly: [startDate] is a Sunday, namely midnight of the current
    local day minus the current weekday index (Sunday = 0, the index being
    between 0 and 6), and [endDate] is exactly 6 days later.  Monthly:
    [startDate] and [endDate] are midnight of the first and of the last
    calendar day of the current month, whatever today's weekday.
    ([new Date(y, m, d)] reads a year between 0 and 99 as 1900 + y, so the
    monthly case is stated for a clock outside those years.)  This says
    nothing yet of the dates the query is made with, which are the UTC dates
    of these instants: see [period_query_dates]. *)
Lemma local_period_fields tza now b :
  (period b = monthly -> ~ (0 <= getFullYear tza now <= 99)) ->
  let startDate := fst (periodRange tza (Some b) now) in
  let endDate := snd (periodRange tza (Some b) now) in
  match period b with
  | weekly =>
      getDay tza startDate = 0
      /\ 0 <= getDay tza now <= 6
      /\ LocalTime tza startDate
         = MakeDate (Day (LocalTime tza now) - getDay tza now) 0
      /\ endDate = startDate + 6 * msPerDay
      /\ LocalTime tza endDate = MakeDate (Day (LocalTime tza startDate) + 6) 0
  | monthly =>
      LocalTime tza startDate = MakeDate (Day (LocalTime tza startDate)) 0
      /\ getFullYear tza startDate = getFullYear tza now
      /\ getMonth tza startDate = getMonth tza now
      /\ getDate tza startDate = 1
      /\ LocalTime tza endDate = MakeDate (Day (LocalTime tza endDate)) 0
      /\ getFullYear tza endDate = getFullYear tza now
      /\ getMonth tza endDate = getMonth tza now
      /\ getDate tza endDate
         = DaysInMonth (getFullYear tza now) (getMonth tza now)
  end.
Proof.
  intros Hyear startDate endDate. subst startDate endDate.
  unfold periodRange. cbn [fmap option_fmap option_map].
  destruct (period b) eqn:Hp.
  - rewrite bool_decide_eq_true_2 by reflexivity. cbn [fst snd].
    rewrite !setDate_relative.
    replace (getDate tza now - getDay tza now)
      with (getDate tza now + - getDay tza now) by lia.
    rewrite setDate_relative.
    unfold setHours, getDay, WeekDay, LocalTime, UTC, MakeDate, MakeTime, Day,
      msPerDay.
    repeat split; zdiv.
  - rewrite bool_decide_eq_false_2 by discriminate. cbn [fst snd].
    specialize (Hyear eq_refl).
    pose proof (MonthFromTime_range (LocalTime tza now)) as Hm.
    fold (getMonth tza now) in Hm.
    unfold newDate.
    replace ((0 <=? getFullYear tza now) && (getFullYear tza now <=? 99))
      with false by (symmetry; apply andb_false_iff; lia).
    rewrite MakeDay_last by exact Hm.
    pose proof (DaysInMonth_range (getFullYear tza now) (getMonth tza now)) as Hd.
    set (Y := getFullYear tza now) in *. set (M := getMonth tza now) in *.
    destruct (fields_of_MakeDay Y M 1 Hm ltac:(lia)) as (Y1 & M1 & D1).
    destruct (fields_of_MakeDay Y M (DaysInMonth Y M) Hm ltac:(lia))
      as (Y2 & M2 & D2).
    unfold getFullYear, getMonth, getDate. rewrite !LocalTime_UTC.
    change (MakeTime 0 0 0 0) with 0.
    repeat split; try assumption; unfold MakeDate, Day, msPerDay; zdiv.
Qed.

(** In Manila (UTC+8) on Friday 2024-03-15, a monthly budget runs from local
    midnight of March 1st to local midnight of March 31st. *)
Lemma local_period_fields_in_manila :
  let b := mkBudget "b1" "alice" 5000%Q monthly 0 in
  let tza := 28800000 in
  let now := 1710504000000 in
  (period b = monthly -> ~ (0 <= getFullYear tza now <= 99))
  /\ getDate tza (fst (periodRange tza (Some b) now)) = 1
  /\ getDate tza (snd (periodRange tza (Some b) now)) = 31.
Proof.
  intros b tza now.
  assert (H : period b = monthly -> ~ (0 <= getFullYear tza now <= 99)).
  { intros _. vm_compute. intros [_ H]. apply H. reflexivity. }
  split; [exact H|].
  pose proof (local_period_fields tza now b H) as P.
  cbn [period b] in P.
  destruct P as (_ & _ & _ & D1 & _ & _ & _ & D2).
  split; [exact D1|]. rewrite D2. reflexivity.
Defined.


(** Both ends of the period are local midnights. *)
Lemma periodRange_midnights tza b now :
  let range := periodRange tza b now in
  fst range = UTC tza (MakeDate (Day (LocalTime tza (fst range))) 0)
  /\ snd range = UTC tza (MakeDate (Day (LocalTime tza (snd range))) 0).
Proof.
  unfold periodRange. destruct (bool_decide _); cbn [fst snd].
  - rewrite !setDate_relative.
    unfold setHours, LocalTime, UTC, MakeDate, MakeTime, Day, msPerDay.
    split; zdiv.
  - unfold newDate, LocalTime, UTC, MakeDate, MakeTime, Day, msPerDay.
    split; zdiv.
Qed.

(** The dates the query compares with: the local days of the two ends of
    the period, moved by the whole days of the zone offset.  On a server in
    UTC or up to a day west of it they are those days; east of UTC, the
    days before. *)
Lemma period_query_dates tza b now :
  let range := periodRange tza b now in
  toISODate (fst range) = Day (LocalTime tza (fst range)) + Day (- tza)
  /\ toISODate (snd range) = Day (LocalTime tza (snd range)) + Day (- tza).
Proof.
  intros range. destruct (periodRange_midnights tza b now) as [H1 H2].
  fold range in H1, H2. split.
  - rewrite H1 at 1. apply toISODate_local_midnight.
  - rewrite H2 at 1. apply toISODate_local_midnight.
Qed.

(** East of UTC, up to a day, both dates of the query are the days before
    the local days of the two ends of the period. *)
Lemma period_query_dates_east tza b now :
  0 < tza <= msPerDay ->
  let range := periodRange tza b now in
  toISODate (fst range) = Day (LocalTime tza (fst range)) - 1
  /\ toISODate (snd range) = Day (LocalTime tza (snd range)) - 1.
Proof.
  intros Hz range. destruct (period_query_dates tza b now) as [H1 H2].
  fold range in H1, H2.
  assert (Day (- tza) = -1) by (unfold Day, msPerDay in *; zdiv).
  lia.
Qed.

(** C5.  The claim asks that the period the summary measures spending
    against starts on a Sunday and ends 6 days later (weekly), or runs from
    the first to the last day of the month (monthly).  On a server in Manila
    (UTC+8), on Friday 2024-03-15, the [Date] objects are right in local
    time, but the query compares with their UTC dates: the weekly period
    applied runs from Saturday 2024-03-09 to Friday 2024-03-15 and the
    monthly one from 2024-02-29 to 2024-03-30.  The summary of a weekly
    budget counts the expense of last week's Saturday and leaves out the
    one of this week's Saturday. *)
Theorem period_east_of_utc :
  let tza := LocalTZA manila_env in
  let now := clock_at manila_env 1 in
  let week := periodRange tza (Some weekly_budget) now in
  let month := periodRange tza (Some (mkBudget "b1" "alice" 1000%Q monthly 0)) now in
  let s := fst (getBudgetSummary manila_env world_weekly) in
  getDay tza (fst week) = 0
  /\ civil (toISODate (fst week)) = (2024, 3, 9)
  /\ WeekDay (parseISODate (toISODate (fst week))) = 6
  /\ civil (toISODate (snd week)) = (2024, 3, 15)
  /\ civil (toISODate (fst month)) = (2024, 2, 29)
  /\ civil (toISODate (snd month)) = (2024, 3, 30)
  /\ civil (expense_date expense_last_week) = (2024, 3, 9)
  /\ civil (expense_date expense_this_saturday) = (2024, 3, 16)
  /\ summary_expenses s = [expense_last_week]
  /\ totalSpent s = 100%Q.
Proof. vm_compute. repeat split. Qed.

(* ===================================================================== *)
(** ** The daily spending series *)
(* ===================================================================== *)

(** The loop pushes one entry per day from [currentDate] on, as long as the
    moved date is not after [endDate]; any fuel that covers those
    iterations gives the same result. *)
Lemma fill_days_spec tza (dailyTotals : gmap Z Q) endDate fuel :
  forall currentDate result,
    (iterations currentDate endDate <= fuel)%nat ->
    fill_days fuel tza dailyTotals currentDate endDate result
    = result ++ map (fun i : nat =>
                       day_entry dailyTotals (currentDate + Z.of_nat i * msPerDay))
                  (seq 0 (iterations currentDate endDate)).
Proof.
  induction fuel as [|fuel IH]; intros cur res Hfuel.
  - replace (iterations cur endDate) with O by lia. cbn. now rewrite app_nil_r.
  - cbn [fill_days]. unfold iterations in *.
    destruct (Z.leb_spec cur endDate) as [Hle|Hgt];
      [|cbn; now rewrite app_nil_r].
    rewrite setDate_relative, IH.
    + rewrite <- app_assoc. f_equal. cbn [app].
      assert (Hn : Z.to_nat ((endDate - cur) / msPerDay + 1)
                   = S (if cur + 1 * msPerDay <=? endDate
                        then Z.to_nat
                               ((endDate - (cur + 1 * msPerDay)) / msPerDay + 1)
                        else O)).
      { destruct (Z.leb_spec (cur + 1 * msPerDay) endDate);
          unfold msPerDay in *; zdiv. }
      rewrite Hn. cbn [seq map]. rewrite Z.mul_0_l, Z.add_0_r. f_equal.
      rewrite <- seq_shift, map_map. apply map_ext. intros i.
      f_equal. lia.
    + destruct (Z.leb_spec (cur + 1 * msPerDay) endDate); [|lia].
      unfold msPerDay in *.
      assert (Z.to_nat ((endDate - cur) / 86400000 + 1)
              = S (Z.to_nat ((endDate - (cur + 1 * 86400000)) / 86400000 + 1)))
        by zdiv.
      lia.
Qed.

Lemma fill_bound_enough startDate endDate :
  (iterations startDate endDate <= fill_bound startDate endDate)%nat.
Proof. unfold iterations, fill_bound. destruct (_ <=? _); lia. Qed.

(** When the two clock readings of [getSpendingOverTime] fall in the same
    millisecond, the series runs from [days] days ago up to today, both
    included: [days + 1] entries, consecutive and zero-filled. *)
Lemma getSpendingOverTime_same_instant e w u days :
  session w = Some u ->
  0 <= days ->
  clock_at e (S (step w)) = clock_at e (step w) ->
  fault_at e (S (S (step w))) = false ->
  let today := toISODate (clock_at e (step w)) in
  exists dailyTotals : gmap Z Q,
    fst (getSpendingOverTime days e w)
    = map (fun i : nat =>
             mkSpending (today - days + Z.of_nat i)
               (or_zero (dailyTotals !! (today - days + Z.of_nat i))))
        (seq 0 (Z.to_nat (days + 1))).
Proof.
  intros Hs Hdays Hclock Hfault today.
  unfold getSpendingOverTime, bind, getUser, Date_now, zone, db_select, ret.
  rewrite Hs. cbn [step tick fst snd]. rewrite Hclock, Hfault.
  set (t := clock_at e (step w)) in *.
  replace (getDate (LocalTZA e) t - days)
    with (getDate (LocalTZA e) t + - days) by lia.
  rewrite setDate_relative.
  cbn [has_error error ok fst snd data ordered fmap option_fmap option_map
         default].
  eexists. rewrite fill_days_spec by apply fill_bound_enough. cbn [app].
  assert (Hn : iterations (t + - days * msPerDay) t = Z.to_nat (days + 1)).
  { unfold iterations, msPerDay.
    destruct (Z.leb_spec (t + - days * 86400000) t); [|lia]. f_equal. zdiv. }
  rewrite Hn. apply map_ext. intros i. unfold day_entry.
  assert (Hd : toISODate (t + - days * msPerDay + Z.of_nat i * msPerDay)
               = today - days + Z.of_nat i).
  { subst today. unfold toISODate, Day, msPerDay. zdiv. }
  rewrite Hd. reflexivity.
Qed.

(** C2.  The claim asks for exactly N entries.  For N = 7, on a server whose
    two clock readings fall in the same millisecond, the series has 8
    entries: 2024-03-08 up to 2024-03-15, today included. *)
Theorem getSpendingOverTime_seven_days_eight_entries :
  let series := fst (getSpendingOverTime 7 example_env world_spending) in
  length series = 8%nat
  /\ map (fun x => civil (date x)) series
     = [(2024, 3, 8); (2024, 3, 9); (2024, 3, 10); (2024, 3, 11);
        (2024, 3, 12); (2024, 3, 13); (2024, 3, 14); (2024, 3, 15)]
  /\ map amount series = [0; 0; 0; 0; 0; 0; 0; 500]%Q.
Proof. vm_compute. repeat split. Qed.

(* ===================================================================== *)
(** ** The budget summary *)
(* ===================================================================== *)

Lemma filter_none {A} (c : A -> bool) (l : list A) :
  (forall x, In x l -> c x = false) -> List.filter c l = [].
Proof.
  induction l as [|x l IH]; intros H; cbn; [reflexivity|].
  rewrite (H x (or_introl eq_refl)). apply IH. intros y Hy. apply H. now right.
Qed.

Lemma filter_nil_false {A} (c : A -> bool) (l : list A) :
  List.filter c l = [] -> forall x, In x l -> c x = false.
Proof.
  induction l as [|y l IH]; cbn; intros H x Hx; [easy|].
  destruct (c y) eqn:Hy; [discriminate|].
  destruct Hx as [->|Hx]; [exact Hy|now apply IH].
Qed.

Lemma Number_gt_spec x y : Number_gt x y = true <-> (y < x)%Q.
Proof.
  unfold Number_gt. rewrite negb_true_iff, <- not_true_iff_false, Qle_bool_iff.
  split; [apply Qnot_le_lt|apply Qlt_not_le].
Qed.



















(* ===================================================================== *)
(** ** The premium workflow *)
(* ===================================================================== *)

Lemma map_touch_id {A} (c : A -> bool) (f : A -> A) (l : list A) :
  (forall x, In x l -> c x = false) ->
  map (fun x => if c x then f x else x) l = l.
Proof.
  induction l as [|x l IH]; intros H; cbn; [reflexivity|].
  rewrite (H x (or_introl eq_refl)), IH; [reflexivity|].
  intros y Hy. apply H. now right.
Qed.

Lemma db_eta d :
  mkDb (profiles d) (budgets d) (expenses d) (premium_requests d) = d.
Proof. now destruct d. Qed.

(** Under a primary key, a selection by key has at most one row. *)
Lemma filter_key_unique {A} (key : A -> string) (c : A -> bool) (k : string)
    (l : list A) :
  NoDup (map key l) ->
  List.filter (fun x => c x && String.eqb (key x) k) l = []
  \/ exists x, List.filter (fun x => c x && String.eqb (key x) k) l = [x].
Proof.
  induction l as [|x l IH]; intros Hnd; cbn; [now left|].
  apply NoDup_cons in Hnd as [Hx Hnd].
  destruct (c x && String.eqb (key x) k) eqn:Hc; [|now apply IH].
  right. exists x. f_equal.
  apply andb_prop in Hc as [_ Hk]. apply String.eqb_eq in Hk.
  clear IH Hnd. induction l as [|y l IH]; cbn; [reflexivity|].
  cbn in Hx. apply not_elem_of_cons in Hx as [Hxy Hx].
  destruct (String.eqb_spec (key y) k) as [E|N]; [congruence|].
  rewrite andb_false_r. now apply IH.
Qed.

(** C1, as the claim states it, fails: the admin rejects a request that was
    already approved, the call succeeds and the stored status and review
    metadata are overwritten. *)
Lemma reject_overwrites_approved :
  let w' := snd (rejectPremiumRequest "r1" example_env world_reviewed) in
  premium_requests (db world_reviewed)
  = [alice_request approved (Some 1700000000000) (Some "admin")]
  /\ fst (rejectPremiumRequest "r1" example_env world_reviewed) = action_success
  /\ premium_requests (db w')
     = [alice_request rejected (Some 1710504000000) (Some "admin")].
Proof. vm_compute. repeat split. Qed.

(** C1, amended.  Neither call looks at the current status.  With a store
    that does not fail, a call by a caller whose profile is premium writes
    the new status, the reviewer and the review time over the request with
    that id, pending or not; a call by a caller who is not premium leaves
    every request as it is (the update policy admits no row). *)
Theorem review_overwrites_whatever_status e w u requestId :
  session w = Some u ->
  (forall n, fault_at e n = false) ->
  NoDup (map request_id (premium_requests (db w))) ->
  let write st at_ r :=
    if caller_is_premium w && String.eqb (request_id r) requestId
    then review st u at_ r else r in
  let rejected_db := db (snd (rejectPremiumRequest requestId e w)) in
  let approved_db := db (snd (approvePremiumRequest requestId e w)) in
  premium_requests rejected_db
  = map (write rejected (clock_at e (step w))) (premium_requests (db w))
  /\ premium_requests approved_db
     = map (write approved (clock_at e (S (step w)))) (premium_requests (db w))
  /\ (caller_is_premium w = false ->
      premium_requests rejected_db = premium_requests (db w)
      /\ premium_requests approved_db = premium_requests (db w)).
Proof.
  intros Hs Hf Hnd write rejected_db approved_db.
  assert (Hr : premium_requests rejected_db
               = map (write rejected (clock_at e (step w)))
                   (premium_requests (db w))).
  { subst write rejected_db. cbv beta.
    unfold rejectPremiumRequest, bind, getUser, Date_now, db_update, ret.
    rewrite Hs. cbn. rewrite Hf. cbn. apply map_ext. intros r.
    change (caller_is_premium (tick w)) with (caller_is_premium w).
    change (is_uid (tick w)) with (is_uid w).
    destruct (caller_is_premium w), (is_uid w (request_user_id r)); reflexivity. }
  assert (Ha : premium_requests approved_db
               = map (write approved (clock_at e (S (step w))))
                   (premium_requests (db w))).
  { subst write approved_db. cbv beta.
    unfold approvePremiumRequest, bind, getUser, db_select, ret.
    rewrite Hs, Hf. cbn.
    destruct (filter_key_unique request_id
                (fun r => is_uid w (request_user_id r) || caller_is_premium w)
                requestId _ Hnd) as [Hnone|[x Hx]].
    - rewrite Hnone. cbn. symmetry. apply map_touch_id. intros r Hr'.
      pose proof (filter_nil_false _ _ Hnone r Hr') as Hc. cbn in Hc.
      destruct (caller_is_premium w); [|reflexivity].
      rewrite orb_true_r in Hc. exact Hc.
    - rewrite Hx. unfold Date_now, db_update. cbn. repeat (rewrite Hf; cbn).
      apply map_ext. intros r.
      change (caller_is_premium (tick (tick w))) with (caller_is_premium w).
      change (is_uid (tick (tick w))) with (is_uid w).
      destruct (caller_is_premium w), (is_uid w (request_user_id r));
        reflexivity. }
  split; [exact Hr|]. split; [exact Ha|].
  intros Hnp. rewrite Hr, Ha. subst write. cbv beta. rewrite Hnp. cbn.
  split; apply map_id.
Qed.

(** The admin approves again, or rejects, the request approved earlier. *)
Lemma review_overwrites_whatever_status_witness :
  session world_reviewed = Some "admin"
  /\ (forall n, fault_at example_env n = false)
  /\ NoDup (map request_id (premium_requests (db world_reviewed)))
  /\ premium_requests
       (db (snd (rejectPremiumRequest "r1" example_env world_reviewed)))
     = [review rejected "admin" 1710504000000
          (alice_request approved (Some 1700000000000) (Some "admin"))]
  /\ premium_requests
       (db (snd (approvePremiumRequest "r1" example_env world_reviewed)))
     = [review approved "admin" 1710504000000
          (alice_request approved (Some 1700000000000) (Some "admin"))].
Proof.
  assert (H1 : session world_reviewed = Some "admin") by reflexivity.
  assert (H2 : forall n, fault_at example_env n = false) by reflexivity.
  assert (H3 : NoDup (map request_id (premium_requests (db world_reviewed)))).
  { cbn. apply NoDup_singleton. }
  destruct (review_overwrites_whatever_status example_env world_reviewed
              "admin" "r1" H1 H2 H3) as (Hr & Ha & _).
  split; [exact H1|]. split; [exact H2|]. split; [exact H3|].
  split; [rewrite Hr|rewrite Ha]; reflexivity.
Defined.

(** C4.  The claim asks that an approve call by a caller who is not premium
    returns an error.  Alice, not premium, approves her own pending request:
    the call reports success, the request stays pending (the update policy
    admits no row) and her own profile becomes premium. *)
Theorem approve_own_request_without_premium :
  let w' := snd (approvePremiumRequest "r1" example_env world_pending) in
  session world_pending = Some "alice"
  /\ caller_is_premium world_pending = false
  /\ fst (approvePremiumRequest "r1" example_env world_pending) = action_success
  /\ premium_requests (db w') = [alice_request pending None None]
  /\ profiles (db w')
     = [admin_profile;
        mkProfile "alice" None true lifetime (Some 1710504000000) 0].
Proof. vm_compute. repeat split. Qed.

(** C8.  For an authenticated caller, [submitPremiumRequest] fails with
    "Payment proof is required" when no proof is attached, leaving the world
    as it was, and with "Failed to upload payment proof" when the upload
    fails, leaving [premium_requests] as it was; and whenever the call
    changes [premium_requests], the proof was stored first. *)
Theorem submit_failures_create_no_row e w u formData :
  session w = Some u ->
  (FormData_get formData "payment_proof" = None ->
     submitPremiumRequest formData e w
     = (action_error "Payment proof is required", w))
  /\ (forall paymentProof,
        FormData_get formData "payment_proof" = Some paymentProof ->
        fault_at e (S (step w)) = true ->
        fst (submitPremiumRequest formData e w)
        = action_error "Failed to upload payment proof"
        /\ premium_requests (db (snd (submitPremiumRequest formData e w)))
           = premium_requests (db w))
  /\ (premium_requests (db (snd (submitPremiumRequest formData e w)))
      <> premium_requests (db w) ->
      exists path paymentProof,
        FormData_get formData "payment_proof" = Some paymentProof
        /\ payments (snd (submitPremiumRequest formData e w))
           = payments w ++ [(path, paymentProof)]).
Proof.
  intros Hs. unfold submitPremiumRequest, bind, getUser, ret. rewrite Hs.
  destruct (FormData_get formData "payment_proof") as [f|] eqn:Hf.
  - split; [discriminate|]. split.
    + intros f' [= <-] Hfault. unfold Date_now, storage_upload. cbn.
      rewrite Hfault. cbn. split; reflexivity.
    + unfold Date_now, storage_upload, db_insert. cbn.
      destruct (fault_at e (S (step w))); cbn; [congruence|].
      intros _. eexists _, f. split; [reflexivity|].
      repeat match goal with
             | |- context [if ?b then _ else _] => destruct b; cbn
             end; reflexivity.
  - split; [reflexivity|]. split; [discriminate|]. cbn. congruence.
Qed.

(** Alice submits an empty form, and a form whose upload fails. *)
Lemma submit_failures_create_no_row_witness :
  let failing := mkEnv 0 (fun n => Nat.eqb n 1) (fun _ => 1710504000000)
                   (fun n => pretty n) in
  let form := [("payment_proof", mkFile "receipt.png" "...")] in
  session world_pending = Some "alice"
  /\ submitPremiumRequest [] example_env world_pending
     = (action_error "Payment proof is required", world_pending)
  /\ fst (submitPremiumRequest form failing world_pending)
     = action_error "Failed to upload payment proof"
  /\ premium_requests (db (snd (submitPremiumRequest form failing world_pending)))
     = premium_requests (db world_pending).
Proof.
  intros failing form.
  assert (H1 : session world_pending = Some "alice") by reflexivity.
  destruct (submit_failures_create_no_row example_env world_pending "alice" []
              H1) as (Hnone & _ & _).
  destruct (submit_failures_create_no_row failing world_pending "alice" form
              H1) as (_ & Hup & _).
  split; [exact H1|]. split; [exact (Hnone eq_refl)|].
  exact (Hup _ eq_refl eq_refl).
Defined.

(** C10.  For an authenticated caller and a request id that no row carries,
    [rejectPremiumRequest] reports success (its update, when the store
    accepts it, matches no row and changes nothing), whereas
    [approvePremiumRequest] fails with "Request not found". *)
Theorem reject_missing_succeeds_approve_fails e w u requestId :
  session w = Some u ->
  (forall r, In r (premium_requests (db w)) -> request_id r <> requestId) ->
  (fault_at e (S (step w)) = false ->
     fst (rejectPremiumRequest requestId e w) = action_success
     /\ db (snd (rejectPremiumRequest requestId e w)) = db w)
  /\ fst (approvePremiumRequest requestId e w) = action_error "Request not found"
  /\ db (snd (approvePremiumRequest requestId e w)) = db w.
Proof.
  intros Hs Hnone.
  assert (Hc : forall r, In r (premium_requests (db w)) ->
                         String.eqb (request_id r) requestId = false).
  { intros r Hr. apply String.eqb_neq. now apply Hnone. }
  split.
  - intros Hf.
    unfold rejectPremiumRequest, bind, getUser, Date_now, db_update, ret.
    rewrite Hs. cbn. rewrite Hf. cbn. split; [reflexivity|].
    rewrite map_touch_id; [apply db_eta|].
    intros r Hr. rewrite (Hc r Hr). apply andb_false_r.
  - unfold approvePremiumRequest, bind, getUser, db_select, ret.
    rewrite Hs. cbn.
    destruct (fault_at e (step w)); cbn; [split; reflexivity|].
    rewrite filter_none; [cbn; split; reflexivity|].
    intros r Hr. rewrite (Hc r Hr). apply andb_false_r.
Qed.

(** The admin reviews "r2", an id no request has. *)
Lemma reject_missing_succeeds_approve_fails_witness :
  session world_reviewed = Some "admin"
  /\ (forall r, In r (premium_requests (db world_reviewed)) ->
                request_id r <> "r2")
  /\ fst (rejectPremiumRequest "r2" example_env world_reviewed) = action_success
  /\ fst (approvePremiumRequest "r2" example_env world_reviewed)
     = action_error "Request not found".
Proof.
  assert (H1 : session world_reviewed = Some "admin") by reflexivity.
  assert (H2 : forall r, In r (premium_requests (db world_reviewed)) ->
                         request_id r <> "r2").
  { intros r [<-|[]]. discriminate. }
  destruct (reject_missing_succeeds_approve_fails example_env world_reviewed
              "admin" "r2" H1 H2) as (Hr & Ha & _).
  split; [exact H1|]. split; [exact H2|].
  split; [exact (proj1 (Hr eq_refl))|exact Ha].
Defined.

(* ===================================================================== *)
(** ** The financial snapshot and the fallback insights *)
(* ===================================================================== *)

(** C7.  Every snapshot [calculateFinancialData] derives has risk tier high
    exactly when percent_used > 75, moderate exactly when
    40 <= percent_used <= 75, and low otherwise; a budget of 100 with 75
    spent gives percent_used = 75 and moderate, with 76 spent it gives
    percent_used = 76 and high. *)
Theorem risk_level_thresholds :
  (forall clientTZA e w,
      exists d, fst (calculateFinancialData clientTZA e w) = Some d
        /\ (risk_level d = high <-> (75 < percent_used d)%Q)
        /\ (risk_level d = moderate <-> (40 <= percent_used d <= 75)%Q)
        /\ (risk_level d = low <-> (percent_used d < 40)%Q))
  /\ (exists d,
        fst (calculateFinancialData 0 example_env (world_spent 75)) = Some d
        /\ percent_used d = 75%Q /\ risk_level d = moderate)
  /\ (exists d,
        fst (calculateFinancialData 0 example_env (world_spent 76)) = Some d
        /\ percent_used d = 76%Q /\ risk_level d = high).
Proof.
  split; [|split; eexists; vm_compute; repeat split].
  intros tz e w. unfold calculateFinancialData, bind, ret.
  destruct (getBudgetSummary e w) as [summary w1].
  destruct (getExpenses None None e w1) as [expenses w2].
  destruct (Date_now e w2) as [t w3].
  eexists. split; [reflexivity|]. cbn [risk_level percent_used].
  set (percentUsed := if Number_gt _ 0 then _ else _).
  destruct (Number_gt percentUsed 75) eqn:Hhigh.
  - apply Number_gt_spec in Hhigh.
    repeat split; try discriminate; intros; try reflexivity; try assumption;
      lra.
  - assert (Hle : (percentUsed <= 75)%Q).
    { apply Qnot_lt_le. intros H. apply Number_gt_spec in H. congruence. }
    destruct (Qle_bool 40 percentUsed) eqn:Hmod.
    + apply Qle_bool_iff in Hmod.
      repeat split; try discriminate; intros; try reflexivity; try assumption;
        lra.
    + assert (Hlt : (percentUsed < 40)%Q).
      { apply Qnot_le_lt. intros H. apply Qle_bool_iff in H. congruence. }
      repeat split; try discriminate; intros; try reflexivity; try assumption;
        lra.
Qed.

Lemma generateFallbackInsights_length show data :
  length (generateFallbackInsights show data) = 4%nat.
Proof.
  unfold generateFallbackInsights.
  destruct (String.eqb (json_risk_level data) "high");
    [|destruct (String.eqb (json_risk_level data) "moderate")]; reflexivity.
Qed.

(** C9.  The fallback insights are a function of the snapshot alone: two runs
    of the route on the same snapshot that both answer from the fallback
    return the same insights, whatever the generative service, the store,
    the clock and the caller are; these are [generateFallbackInsights] of the
    snapshot, and there are exactly 4 of them. *)
Theorem fallback_is_function_of_snapshot show data
    ai1 e1 w1 ai2 e2 w2 insights1 message1 insights2 message2 :
  fst (POST show ai1 (Some data) e1 w1)
    = reply_insights insights1 "fallback" message1 ->
  fst (POST show ai2 (Some data) e2 w2)
    = reply_insights insights2 "fallback" message2 ->
  insights1 = insights2
  /\ insights1 = generateFallbackInsights show data
  /\ length insights1 = 4%nat.
Proof.
  assert (H : forall ai e w insights message,
             fst (POST show ai (Some data) e w)
             = reply_insights insights "fallback" message ->
             insights = generateFallbackInsights show data).
  { intros ai e w insights message. unfold POST, bind, getUser, ret.
    destruct (session w); [|discriminate].
    destruct (db_select profiles_table _ e w) as [found w'].
    destruct (negb _); [discriminate|].
    destruct (negb (openai ai)); [cbn; congruence|].
    destruct (completion ai data) as [[content|]|]; try (cbn; congruence).
    destruct (String.eqb content ""); cbn; congruence. }
  intros H1 H2. apply H in H1, H2. subst.
  split; [reflexivity|]. split; [reflexivity|].
  apply generateFallbackInsights_length.
Qed.

(** The admin asks for insights once without an API key and once with the
    service down. *)
Lemma fallback_is_function_of_snapshot_witness :
  let insights := generateFallbackInsights show_fraction example_snapshot in
  fst (POST show_fraction no_api_key (Some example_snapshot) example_env
         world_reviewed)
  = reply_insights insights "fallback"
      (Some "AI insights temporarily using local analysis. Add OPENAI_API_KEY for advanced insights.")
  /\ fst (POST show_fraction api_down (Some example_snapshot) example_env
            world_reviewed)
     = reply_insights insights "fallback"
         (Some "Using local analysis. AI service temporarily unavailable.")
  /\ length insights = 4%nat.
Proof.
  intros insights.
  assert (H1 : fst (POST show_fraction no_api_key (Some example_snapshot)
                      example_env world_reviewed)
               = reply_insights insights "fallback"
                   (Some "AI insights temporarily using local analysis. Add OPENAI_API_KEY for advanced insights."))
    by reflexivity.
  assert (H2 : fst (POST show_fraction api_down (Some example_snapshot)
                      example_env world_reviewed)
               = reply_insights insights "fallback"
                   (Some "Using local analysis. AI service temporarily unavailable."))
    by reflexivity.
  destruct (fallback_is_function_of_snapshot _ _ _ _ _ _ _ _ _ _ _ _ H1 H2)
    as (_ & _ & Hlen).
  split; [exact H1|]. split; [exact H2|exact Hlen].
Defined.
